(** * Pharmacy directory client: query controller and session store

    A shallow embedding of the React components
    [frontend/src/pages/Directory.jsx] (the searchable pharmacy table) and
    [AuthProvider]/[ProtectedRoute] of the application root, with the
    properties of the written specification stated and settled against it.

    React state is modelled by explicit state passing: a component is a
    record of its [useState] cells, an event handler is a function on that
    record, and the browser (URL, console, opened windows, promises that
    are still pending) is a second group of fields of the same record. *)

From Stdlib Require Import ZArith Ascii String List.
From stdpp Require Import base decidable option list strings gmap fin_maps.

Local Open Scope string_scope.
Local Open Scope Z_scope.

(** ** The fragment of JavaScript the components use *)

Module JS.

(** A JavaScript Number, as far as this code produces one: an integer or
    [NaN].  Integers are mathematical; the rounding of IEEE doubles beyond
    2^53 is not modelled. *)
Inductive number : Type :=
  | Num (z : Z)
  | NaN.

Inductive value : Type :=
  | VUndefined
  | VNull
  | VBool (b : bool)
  | VNumber (n : number)
  | VString (s : string).

#[global] Instance number_eq_dec : EqDecision number.
Proof. solve_decision. Defined.

#[global] Instance value_eq_dec : EqDecision value.
Proof. solve_decision. Defined.

(** ToBoolean. *)
Definition truthy (v : value) : bool :=
  match v with
  | VUndefined | VNull => false
  | VBool b => b
  | VNumber (Num z) => negb (z =? 0)
  | VNumber NaN => false
  | VString s => negb (String.eqb s "")
  end.

(** [a !== b] on the values above ([NaN] differs from itself). *)
Definition strict_neq (a b : value) : bool :=
  match a, b with
  | VNumber NaN, _ | _, VNumber NaN => true
  | _, _ => negb (bool_decide (a = b))
  end.

(** [n + 1] and [n - 1] on Numbers. *)
Definition add (n : number) (k : Z) : number :=
  match n with Num z => Num (z + k) | NaN => NaN end.

Definition sub (n : number) (k : Z) : number :=
  match n with Num z => Num (z - k) | NaN => NaN end.

(** Relational operators on Numbers: any comparison with [NaN] is false. *)
Definition le (a b : number) : bool :=
  match a, b with Num x, Num y => x <=? y | _, _ => false end.

Definition ge (a b : number) : bool :=
  match a, b with Num x, Num y => y <=? x | _, _ => false end.

Definition gt (a b : number) : bool :=
  match a, b with Num x, Num y => y <? x | _, _ => false end.

(** ToString, for the values that reach a query string. *)
Definition pos_digit (d : Z) : ascii := ascii_of_nat (48 + Z.to_nat d).

Fixpoint digits_of (fuel : nat) (z : Z) (acc : string) : string :=
  match fuel with
  | O => acc
  | S fuel' =>
      let acc' := String (pos_digit (z mod 10)) acc in
      if z / 10 =? 0 then acc' else digits_of fuel' (z / 10) acc'
  end.

Definition Z_to_string (z : Z) : string :=
  if z <? 0 then "-" +:+ digits_of (S (Z.to_nat (Z.log2 (- z)))) (- z) ""
  else digits_of (S (Z.to_nat (Z.log2 z))) z "".

Definition to_string (v : value) : string :=
  match v with
  | VUndefined => "undefined"
  | VNull => "null"
  | VBool true => "true"
  | VBool false => "false"
  | VNumber (Num z) => Z_to_string z
  | VNumber NaN => "NaN"
  | VString s => s
  end.

(** *** [parseInt(string)], radix omitted *)

(** White space skipped at the start of the input (the ASCII part of
    StrWhiteSpaceChar: TAB, LF, VT, FF, CR, SP). *)
Definition is_white_space (c : ascii) : bool :=
  let n := nat_of_ascii c in
  ((9 <=? n) && (n <=? 13))%nat || (n =? 32)%nat.

Fixpoint trim_start (s : string) : string :=
  match s with
  | String c rest => if is_white_space c then trim_start rest else s
  | EmptyString => s
  end.

(** The value of [c] as a digit in radix [R], when it is one. *)
Definition digit_value (R : Z) (c : ascii) : option Z :=
  let n := Z.of_nat (nat_of_ascii c) in
  let d :=
    if (48 <=? n) && (n <=? 57) then Some (n - 48)
    else if (97 <=? n) && (n <=? 122) then Some (n - 87)
    else if (65 <=? n) && (n <=? 90) then Some (n - 55)
    else None in
  match d with
  | Some v => if v <? R then Some v else None
  | None => None
  end.

(** The integer denoted by the longest prefix of radix-[R] digits; [acc]
    is [None] until a first digit has been read. *)
Fixpoint parse_digits (R : Z) (s : string) (acc : option Z) : option Z :=
  match s with
  | String c rest =>
      match digit_value R c with
      | Some d => parse_digits R rest (Some (default 0 acc * R + d))
      | None => acc
      end
  | EmptyString => acc
  end.

Definition parseInt (input : string) : number :=
  let S0 := trim_start input in
  let '(sign, S1) :=
    match S0 with
    | String "-" rest => (-1, rest)
    | String "+" rest => (1, rest)
    | _ => (1, S0)
    end in
  let '(R, S2) :=
    match S1 with
    | String "0" (String "x" rest) => (16, rest)
    | String "0" (String "X" rest) => (16, rest)
    | _ => (10, S1)
    end in
  match parse_digits R S2 None with
  | Some mathInt => Num (sign * mathInt)
  | None => NaN
  end.

(** [String.prototype.trim], over the same white space.  The components
    never call it; it is here to state what the specification says about
    trimmed text. *)
Definition trim_end (s : string) : string :=
  String.rev (trim_start (String.rev s)).

Definition trim (s : string) : string := trim_end (trim_start s).

(** *** [URLSearchParams] *)

(** The entries of a query string, in order; a name may occur twice. *)
Definition URLSearchParams : Type := list (string * string).

(** [params.get(name)]: the first value under [name], [null] when there is
    none (here [None]). *)
Fixpoint get (name : string) (params : URLSearchParams) : option string :=
  match params with
  | (k, v) :: rest => if String.eqb k name then Some v else get name rest
  | [] => None
  end.

(** [params.set(name, value)]: overwrite the first entry under [name] and
    drop the others, or append a new entry. *)
Fixpoint set (name value : string) (params : URLSearchParams) : URLSearchParams :=
  match params with
  | (k, v) :: rest =>
      if String.eqb k name
      then (k, value) :: List.filter (fun e => negb (String.eqb (fst e) name)) rest
      else (k, v) :: set name value rest
  | [] => [(name, value)]
  end.

(** [params.get(name) || fallback]: [null] and the empty string are the
    falsy results of [get]. *)
Definition get_or (name : string) (params : URLSearchParams) (fallback : string) : string :=
  match get name params with
  | Some v => if truthy (VString v) then v else fallback
  | None => fallback
  end.

End JS.


(** ** The session store: [AuthProvider] and [ProtectedRoute] *)

Module Auth.

(** What the server says about a user; [Layout] shows [name] and [email]. *)
Record User : Type := { name : string; email : string }.

(** [res.data] of a successful [POST /auth/login]. *)
Module LoginResponse.
Record t : Type := { access_token : string; user : User }.
End LoginResponse.

(** What a rejected [api] call throws: [err.response?.data?.detail]. *)
Record ApiError : Type := { detail : option string }.

(** The [useState] cells of [AuthProvider], and the browser's
    [localStorage]. *)
Record Provider : Type := {
  user : option User;
  loading : bool;
  localStorage : gmap string string;
}.

(** Handlers run in a state monad over [Provider] in which a rejected
    promise is an exception: what was written before the throw stays. *)
Definition M (A : Type) : Type := Provider -> (ApiError + A) * Provider.

#[local] Instance M_ret : MRet M := fun A a s => (inr a, s).

#[local] Instance M_bind : MBind M := fun A B k m s =>
  match m s with
  | (inr a, s') => k a s'
  | (inl e, s') => (inl e, s')
  end.

(** [await p], for a promise that settles to [outcome]. *)
Definition await {A} (outcome : ApiError + A) : M A := fun s => (outcome, s).

Definition setUser (u : option User) : M unit :=
  fun s => (inr tt, {| user := u; loading := loading s; localStorage := localStorage s |}).

Definition setLoading (b : bool) : M unit :=
  fun s => (inr tt, {| user := user s; loading := b; localStorage := localStorage s |}).

Definition setItem (key value : string) : M unit :=
  fun s => (inr tt, {| user := user s; loading := loading s;
                       localStorage := <[key := value]> (localStorage s) |}).

Definition removeItem (key : string) : M unit :=
  fun s => (inr tt, {| user := user s; loading := loading s;
                       localStorage := delete key (localStorage s) |}).

Definition getItem (key : string) : M (option string) :=
  fun s => (inr (localStorage s !! key), s).

(** [useState(null)], [useState(true)], before the effect has run. *)
Definition initial (storage : gmap string string) : Provider :=
  {| user := None; loading := true; localStorage := storage |}.

(** The mount effect; [me] is how [api.get('/auth/me')] settles. *)
Definition bootstrap (me : ApiError + User) : M unit :=
  token ← getItem "token";
  match token return M unit with
  | Some t =>
      if JS.truthy (JS.VString t) then
        match me return M unit with
        | inr u => setUser (Some u);; setLoading false
        | inl _ => removeItem "token";; setLoading false
        end
      else setLoading false
  | None => setLoading false
  end.

(** [login(email, password)]; [post] is the [api.post] collaborator. *)
Definition login (post : string -> string * string -> ApiError + LoginResponse.t)
    (email password : string) : M LoginResponse.t :=
  res ← await (post "/auth/login" (email, password));
  setItem "token" (LoginResponse.access_token res);;
  setUser (Some (LoginResponse.user res));;
  mret res.

Definition logout : M unit :=
  removeItem "token";; setUser None.

(** What [ProtectedRoute] renders. *)
Inductive Rendered : Type :=
  | Navigate (to : string)
  | Children.

Definition ProtectedRoute (s : Provider) : Rendered :=
  match user s with
  | None => Navigate "/login"
  | Some _ => Children
  end.

(** The message the login form shows for a rejected [login]:
    [err.response?.data?.detail || 'Login failed']. *)
Definition login_error_message (err : ApiError) : string :=
  match detail err with
  | Some d => if JS.truthy (JS.VString d) then d else "Login failed"
  | None => "Login failed"
  end.

End Auth.

(** ** The query controller: [Directory] *)

Module Directory.

(** A row of the table: a JSON object of the server, only displayed. *)
Definition Pharmacy : Type := gmap string JS.value.

(** [res.data] of a successful [GET /pharmacies]. *)
Module ResultPage.
Record t : Type := {
  data : list Pharmacy;
  total : Z;
  page : Z;
  total_pages : Z;
}.
End ResultPage.

(** What a rejected [api.get] throws; the component only logs it. *)
Definition ApiError : Type := string.

(** The [filters] object.  Its three writers (the initial state, the five
    [onChange] handlers and the two pagination buttons) give every field a
    fixed type: text inputs and the select produce strings, the checkbox a
    boolean, [parseInt] and the arithmetic on it a Number. *)
Record Filters : Type := {
  search : string;
  state : string;
  city : string;
  zip : string;
  is_independent : bool;
  page : JS.number;
}.

(** The keys of [filters], indexed by the type of the field. *)
Inductive Key : Type -> Type :=
  | key_search : Key string
  | key_state : Key string
  | key_city : Key string
  | key_zip : Key string
  | key_is_independent : Key bool
  | key_page : Key JS.number.

(** [{ ...prev, [key]: value }] *)
Definition assign {A} (key : Key A) : A -> Filters -> Filters :=
  match key in Key T return T -> Filters -> Filters with
  | key_search => fun value prev =>
      {| search := value; state := state prev; city := city prev; zip := zip prev;
         is_independent := is_independent prev; page := page prev |}
  | key_state => fun value prev =>
      {| search := search prev; state := value; city := city prev; zip := zip prev;
         is_independent := is_independent prev; page := page prev |}
  | key_city => fun value prev =>
      {| search := search prev; state := state prev; city := value; zip := zip prev;
         is_independent := is_independent prev; page := page prev |}
  | key_zip => fun value prev =>
      {| search := search prev; state := state prev; city := city prev; zip := value;
         is_independent := is_independent prev; page := page prev |}
  | key_is_independent => fun value prev =>
      {| search := search prev; state := state prev; city := city prev; zip := zip prev;
         is_independent := value; page := page prev |}
  | key_page => fun value prev =>
      {| search := search prev; state := state prev; city := city prev; zip := zip prev;
         is_independent := is_independent prev; page := value |}
  end.

(** The initial value of [filters], read from the URL of the page. *)
Definition initial_filters (searchParams : JS.URLSearchParams) : Filters :=
  {| search := JS.get_or "search" searchParams "";
     state := JS.get_or "state" searchParams "";
     city := JS.get_or "city" searchParams "";
     zip := JS.get_or "zip" searchParams "";
     is_independent :=
       negb (bool_decide (JS.get "is_independent" searchParams = Some "false"));
     page := JS.parseInt (JS.get_or "page" searchParams "1") |}.

(** [prev => ({ ...prev, [key]: value, page: 1 })] *)
Definition updateFilter {A} (key : Key A) (value : A) (prev : Filters) : Filters :=
  assign key_page (JS.Num 1) (assign key value prev).

(** The updaters of the two pagination buttons. *)
Definition previous_page (f : Filters) : Filters :=
  assign key_page (JS.sub (page f) 1) f.

Definition next_page (f : Filters) : Filters :=
  assign key_page (JS.add (page f) 1) f.

(** The [params] object that [fetchData] builds for [GET /pharmacies]. *)
Definition fetch_params (filters : Filters) : gmap string JS.value :=
  let params : gmap string JS.value := ∅ in
  let params :=
    if JS.truthy (JS.VString (search filters))
    then <["search" := JS.VString (search filters)]> params else params in
  let params :=
    if JS.truthy (JS.VString (state filters))
    then <["state" := JS.VString (state filters)]> params else params in
  let params :=
    if JS.truthy (JS.VString (city filters))
    then <["city" := JS.VString (city filters)]> params else params in
  let params :=
    if JS.truthy (JS.VString (zip filters))
    then <["zip" := JS.VString (zip filters)]> params else params in
  let params :=
    if JS.strict_neq (JS.VBool (is_independent filters)) JS.VNull
    then <["is_independent" := JS.VBool (is_independent filters)]> params else params in
  let params := <["page" := JS.VNumber (page filters)]> params in
  <["per_page" := JS.VNumber (JS.Num 50)]> params.

(** The [URLSearchParams] that [exportCSV] appends to [/api/exports/csv?]. *)
Definition export_params (filters : Filters) : JS.URLSearchParams :=
  let params : JS.URLSearchParams := [] in
  let params :=
    if JS.truthy (JS.VString (state filters))
    then JS.set "state" (state filters) params else params in
  let params :=
    if JS.strict_neq (JS.VBool (is_independent filters)) JS.VNull
    then JS.set "is_independent" (JS.to_string (JS.VBool (is_independent filters))) params
    else params in
  if JS.truthy (JS.VString (search filters))
  then JS.set "search" (search filters) params else params.

(** The component: its [useState] cells, then what it has done to the
    browser.  [requests] lists every [GET /pharmacies] issued so far, oldest
    first; [pending] holds the positions of those whose promise has not
    settled. *)
Record Component : Type := {
  searchParams : JS.URLSearchParams;
  data : ResultPage.t;
  states : list (string * Z);
  loading : bool;
  filters : Filters;
  showFilters : bool;
  requests : list (gmap string JS.value);
  pending : gset nat;
  console : list ApiError;
  opened : list JS.URLSearchParams;
}.

Definition setData (d : ResultPage.t) (c : Component) : Component :=
  {| searchParams := searchParams c; data := d; states := states c;
     loading := loading c; filters := filters c; showFilters := showFilters c;
     requests := requests c; pending := pending c; console := console c;
     opened := opened c |}.

Definition setStates (l : list (string * Z)) (c : Component) : Component :=
  {| searchParams := searchParams c; data := data c; states := l;
     loading := loading c; filters := filters c; showFilters := showFilters c;
     requests := requests c; pending := pending c; console := console c;
     opened := opened c |}.

Definition setLoading (b : bool) (c : Component) : Component :=
  {| searchParams := searchParams c; data := data c; states := states c;
     loading := b; filters := filters c; showFilters := showFilters c;
     requests := requests c; pending := pending c; console := console c;
     opened := opened c |}.

Definition setShowFilters (b : bool) (c : Component) : Component :=
  {| searchParams := searchParams c; data := data c; states := states c;
     loading := loading c; filters := filters c; showFilters := b;
     requests := requests c; pending := pending c; console := console c;
     opened := opened c |}.

Definition console_error (e : ApiError) (c : Component) : Component :=
  {| searchParams := searchParams c; data := data c; states := states c;
     loading := loading c; filters := filters c; showFilters := showFilters c;
     requests := requests c; pending := pending c; console := console c ++ [e];
     opened := opened c |}.

Definition window_open (q : JS.URLSearchParams) (c : Component) : Component :=
  {| searchParams := searchParams c; data := data c; states := states c;
     loading := loading c; filters := filters c; showFilters := showFilters c;
     requests := requests c; pending := pending c; console := console c;
     opened := opened c ++ [q] |}.

(** [api.get('/pharmacies', { params })]: the request leaves and its
    promise is pending. *)
Definition api_get (params : gmap string JS.value) (c : Component) : Component :=
  {| searchParams := searchParams c; data := data c; states := states c;
     loading := loading c; filters := filters c; showFilters := showFilters c;
     requests := requests c ++ [params];
     pending := {[ length (requests c) ]} ∪ pending c;
     console := console c; opened := opened c |}.

(** The promise of request [id] settles. *)
Definition settle (id : nat) (c : Component) : Component :=
  {| searchParams := searchParams c; data := data c; states := states c;
     loading := loading c; filters := filters c; showFilters := showFilters c;
     requests := requests c; pending := pending c ∖ {[ id ]};
     console := console c; opened := opened c |}.

(** [fetchData], up to its [await]. *)
Definition fetchData (c : Component) : Component :=
  api_get (fetch_params (filters c)) (setLoading true c).

(** [fetchData], from its [await] on; [outcome] is how the promise settled. *)
Definition fetchData_resume (outcome : ApiError + ResultPage.t) (c : Component) : Component :=
  let c :=
    match outcome with
    | inr res_data => setData res_data c
    | inl e => console_error e c
    end in
  setLoading false c.

(** [setFilters(updater)].  The updater returns a fresh object, so [filters]
    changes identity, [useCallback] makes a new [fetchData], and the effect
    that depends on it runs [fetchData] after the render. *)
Definition setFilters (updater : Filters -> Filters) (c : Component) : Component :=
  fetchData
    {| searchParams := searchParams c; data := data c; states := states c;
       loading := loading c; filters := updater (filters c);
       showFilters := showFilters c; requests := requests c; pending := pending c;
       console := console c; opened := opened c |}.

Definition exportCSV (c : Component) : Component :=
  window_open (export_params (filters c)) c.

(** The first render and its effects, for a page opened at [url]. *)
Definition mount (url : JS.URLSearchParams) : Component :=
  fetchData
    {| searchParams := url;
       data := {| ResultPage.data := []; ResultPage.total := 0;
                  ResultPage.page := 1; ResultPage.total_pages := 0 |};
       states := [];
       loading := false;
       filters := initial_filters url;
       showFilters := true;
       requests := []; pending := ∅; console := []; opened := [] |}.

(** The pagination bar is rendered, and which of its buttons are disabled. *)
Definition pagination_shown (c : Component) : bool :=
  1 <? ResultPage.total_pages (data c).

Definition previous_disabled (c : Component) : bool :=
  ResultPage.page (data c) <=? 1.

Definition next_disabled (c : Component) : bool :=
  ResultPage.total_pages (data c) <=? ResultPage.page (data c).

(** What can happen to a mounted component. *)
Inductive Event : Type :=
  | Change {A} (key : Key A) (value : A)
  | ClickPrevious
  | ClickNext
  | ClickExport
  | ToggleFilters (show : bool)
  | StatesLoaded (r_data : list (string * Z))
  | Settled (id : nat) (outcome : ApiError + ResultPage.t).

(** One event.  A button that is disabled or not rendered takes no click;
    a promise settles once. *)
Definition step (c : Component) (ev : Event) : Component :=
  match ev with
  | Change key value => setFilters (updateFilter key value) c
  | ClickPrevious =>
      if pagination_shown c && negb (previous_disabled c)
      then setFilters previous_page c else c
  | ClickNext =>
      if pagination_shown c && negb (next_disabled c)
      then setFilters next_page c else c
  | ClickExport => exportCSV c
  | ToggleFilters show => setShowFilters show c
  | StatesLoaded r_data => setStates r_data c
  | Settled id outcome =>
      if bool_decide (id ∈ pending c)
      then fetchData_resume outcome (settle id c) else c
  end.

Definition run (c : Component) (evs : list Event) : Component :=
  fold_left step evs c.

(** The stored cells that the render function reads. *)
Definition view (c : Component)
  : ResultPage.t * list (string * Z) * bool * Filters * bool :=
  (data c, states c, loading c, filters c, showFilters c).

End Directory.

(** ** The login page and the logout button *)

Module Login.

(** The [useState] cells of [Login]. *)
Record Form : Type := {
  email : string;
  password : string;
  error : string;
  loading : bool;
}.

(** The page, the session store it reaches through [useAuth], and the
    paths handed to [navigate], oldest first. *)
Record World : Type := {
  form : Form;
  auth : Auth.Provider;
  navigated : list string;
}.

Definition setError (e : string) (f : Form) : Form :=
  {| email := email f; password := password f; error := e; loading := loading f |}.

Definition setLoading (b : bool) (f : Form) : Form :=
  {| email := email f; password := password f; error := error f; loading := b |}.

(** [handleSubmit], up to [await login(email, password)]. *)
Definition handleSubmit_begin (w : World) : World :=
  {| form := setLoading true (setError "" (form w));
     auth := auth w; navigated := navigated w |}.

(** [handleSubmit], from the moment [login] settles; [email] and
    [password] are the values the handler closed over. *)
Definition handleSubmit_end
    (post : string -> string * string -> Auth.ApiError + Auth.LoginResponse.t)
    (email password : string) (w : World) : World :=
  match Auth.login post email password (auth w) with
  | (inr _, auth') =>
      {| form := setLoading false (form w); auth := auth';
         navigated := navigated w ++ ["/"] |}
  | (inl err, auth') =>
      {| form := setLoading false (setError (Auth.login_error_message err) (form w));
         auth := auth'; navigated := navigated w |}
  end.

Definition handleSubmit
    (post : string -> string * string -> Auth.ApiError + Auth.LoginResponse.t)
    (w : World) : World :=
  handleSubmit_end post (email (form w)) (password (form w)) (handleSubmit_begin w).

(** The error paragraph is rendered: [{error && <p>...}]. *)
Definition error_shown (w : World) : bool := JS.truthy (JS.VString (error (form w))).

End Login.

Module Layout.

(** [handleLogout]: [logout()], then [navigate('/login')]. *)
Definition handleLogout (w : Login.World) : Login.World :=
  {| Login.form := Login.form w;
     Login.auth := (Auth.logout (Login.auth w)).2;
     Login.navigated := Login.navigated w ++ ["/login"] |}.

End Layout.

(** ** The change log: [Changes] *)

Module Changes.

(** The filter buttons, in the order they are rendered. *)
Definition types : list string := [""; "new"; "updated"; "deactivated"].

(** The [useState] cells, then the requests issued ([GET /changes]), the
    positions of those still pending, and the console. *)
Record Component : Type := {
  data : Directory.ResultPage.t;
  filter : string;
  page : Z;
  loading : bool;
  requests : list (gmap string JS.value);
  pending : gset nat;
  console : list Directory.ApiError;
}.

(** [{ page, per_page: 50 }], then [change_type] when a filter is set. *)
Definition request_params (page : Z) (filter : string) : gmap string JS.value :=
  let params : gmap string JS.value :=
    <["per_page" := JS.VNumber (JS.Num 50)]> (<["page" := JS.VNumber (JS.Num page)]> ∅) in
  if JS.truthy (JS.VString filter)
  then <["change_type" := JS.VString filter]> params else params.

(** The effect, up to the request. *)
Definition effect (c : Component) : Component :=
  {| data := data c; filter := filter c; page := page c; loading := true;
     requests := requests c ++ [request_params (page c) (filter c)];
     pending := {[ length (requests c) ]} ∪ pending c;
     console := console c |}.

(** A render after the state went from [prev] to [c]: the effect depends
    on [[page, filter]] and runs when one of them has changed. *)
Definition rerender (prev c : Component) : Component :=
  if bool_decide (page c = page prev /\ filter c = filter prev) then c else effect c.

Definition setFilter (type : string) (c : Component) : Component :=
  {| data := data c; filter := type; page := page c; loading := loading c;
     requests := requests c; pending := pending c; console := console c |}.

Definition setPage (updater : Z -> Z) (c : Component) : Component :=
  {| data := data c; filter := filter c; page := updater (page c); loading := loading c;
     requests := requests c; pending := pending c; console := console c |}.

(** The promise chain [.then(setData).catch(console.error).finally(...)]
    of request [id], once it settles. *)
Definition settled (id : nat) (outcome : Directory.ApiError + Directory.ResultPage.t)
    (c : Component) : Component :=
  {| data := match outcome with inr res_data => res_data | inl _ => data c end;
     filter := filter c; page := page c; loading := false;
     requests := requests c; pending := pending c ∖ {[ id ]};
     console := match outcome with inr _ => console c | inl e => console c ++ [e] end |}.

Definition mount : Component :=
  effect
    {| data := {| Directory.ResultPage.data := []; Directory.ResultPage.total := 0;
                  Directory.ResultPage.page := 1; Directory.ResultPage.total_pages := 0 |};
       filter := ""; page := 1; loading := true;
       requests := []; pending := ∅; console := [] |}.

Definition pagination_shown (c : Component) : bool :=
  1 <? Directory.ResultPage.total_pages (data c).

Definition previous_disabled (c : Component) : bool := page c <=? 1.

Definition next_disabled (c : Component) : bool :=
  Directory.ResultPage.total_pages (data c) <=? page c.

Inductive Event : Type :=
  | ClickType (button : nat)
  | ClickPrevious
  | ClickNext
  | Settled (id : nat) (outcome : Directory.ApiError + Directory.ResultPage.t).

(** One event; [ClickType i] is a click on the [i]-th filter button, whose
    handler calls [setFilter(type)] and [setPage(1)] before the render. *)
Definition step (c : Component) (ev : Event) : Component :=
  match ev with
  | ClickType button =>
      match types !! button with
      | Some type => rerender c (setPage (fun _ => 1) (setFilter type c))
      | None => c
      end
  | ClickPrevious =>
      if pagination_shown c && negb (previous_disabled c)
      then rerender c (setPage (fun p => p - 1) c) else c
  | ClickNext =>
      if pagination_shown c && negb (next_disabled c)
      then rerender c (setPage (fun p => p + 1) c) else c
  | Settled id outcome =>
      if bool_decide (id ∈ pending c) then settled id outcome c else c
  end.

Definition run (c : Component) (evs : list Event) : Component :=
  fold_left step evs c.

End Changes.

(** ** The dashboard: [Dashboard] *)

Module Dashboard.

(** A JSON object of the server. *)
Definition Json : Type := gmap string JS.value.

(** The [useState] cells; then whether the two requests of the mount
    effect are still awaited, how many [POST /pipeline/trigger] were issued,
    which of them are pending, and the console. *)
Record Component : Type := {
  stats : option Json;
  pipelineStatus : option Json;
  loading : bool;
  triggering : bool;
  initial_pending : bool;
  triggers : nat;
  trigger_pending : gset nat;
  console : list Directory.ApiError;
}.

Definition mount : Component :=
  {| stats := None; pipelineStatus := None; loading := true; triggering := false;
     initial_pending := true; triggers := 0; trigger_pending := ∅; console := [] |}.

(** [pipelineStatus?.status === 'running'] *)
Definition status_running (c : Component) : bool :=
  match pipelineStatus c with
  | Some o => bool_decide (o !! "status" = Some (JS.VString "running"))
  | None => false
  end.

(** The "Run Pipeline" button is on the page (the spinner is returned
    instead while [loading]) and not disabled. *)
Definition run_enabled (c : Component) : bool :=
  negb (loading c) && negb (triggering c || status_running c).

(** [Promise.all([...]).then(...).catch(console.error).finally(...)]:
    both answers, or the first rejection. *)
Definition loaded (outcome : Directory.ApiError + Json * Json) (c : Component) : Component :=
  {| stats := match outcome with inr (s, _) => Some s | inl _ => stats c end;
     pipelineStatus :=
       match outcome with inr (_, st) => Some st | inl _ => pipelineStatus c end;
     loading := false; triggering := triggering c;
     initial_pending := false; triggers := triggers c;
     trigger_pending := trigger_pending c;
     console := match outcome with inr _ => console c | inl e => console c ++ [e] end |}.

(** [triggerPipeline], up to its [await]. *)
Definition triggerPipeline (c : Component) : Component :=
  {| stats := stats c; pipelineStatus := pipelineStatus c; loading := loading c;
     triggering := true; initial_pending := initial_pending c;
     triggers := S (triggers c);
     trigger_pending := {[ triggers c ]} ∪ trigger_pending c;
     console := console c |}.

(** [triggerPipeline], from its [await] on. *)
Definition triggerPipeline_resume (id : nat) (outcome : Directory.ApiError + unit)
    (c : Component) : Component :=
  {| stats := stats c;
     pipelineStatus :=
       match outcome with
       | inr _ => Some {[ "status" := JS.VString "running" ]}
       | inl _ => pipelineStatus c
       end;
     loading := loading c; triggering := false;
     initial_pending := initial_pending c; triggers := triggers c;
     trigger_pending := trigger_pending c ∖ {[ id ]};
     console := match outcome with inr _ => console c | inl e => console c ++ [e] end |}.

Inductive Event : Type :=
  | Loaded (outcome : Directory.ApiError + Json * Json)
  | ClickRun
  | TriggerSettled (id : nat) (outcome : Directory.ApiError + unit).

Definition step (c : Component) (ev : Event) : Component :=
  match ev with
  | Loaded outcome => if initial_pending c then loaded outcome c else c
  | ClickRun => if run_enabled c then triggerPipeline c else c
  | TriggerSettled id outcome =>
      if bool_decide (id ∈ trigger_pending c)
      then triggerPipeline_resume id outcome c else c
  end.

Definition run (c : Component) (evs : list Event) : Component :=
  fold_left step evs c.

End Dashboard.

(** ** Concrete pages and states used by the examples *)

Import Directory.

Definition empty_page : ResultPage.t :=
  {| ResultPage.data := []; ResultPage.total := 0;
     ResultPage.page := 1; ResultPage.total_pages := 0 |}.

(** What the server answers for California (request A) and for New York
    (request B) in the scenario of two overlapping fetches. *)
Definition page_A : ResultPage.t :=
  {| ResultPage.data := [ {[ "id" := JS.VNumber (JS.Num 1);
                             "state" := JS.VString "CA" ]} ];
     ResultPage.total := 1; ResultPage.page := 1; ResultPage.total_pages := 1 |}.

Definition page_B : ResultPage.t :=
  {| ResultPage.data := [ {[ "id" := JS.VNumber (JS.Num 2);
                             "state" := JS.VString "NY" ]} ];
     ResultPage.total := 1; ResultPage.page := 1; ResultPage.total_pages := 1 |}.

(** The page opened at [?state=CA], then the state filter set to NY while
    the first request is still pending. *)
Definition two_in_flight : Component :=
  run (mount [("state", "CA")]) [Change key_state "NY"].




(** The property name behind a key, and [filters[key]]. *)
Definition key_name {A} (key : Key A) : string :=
  match key with
  | key_search => "search"
  | key_state => "state"
  | key_city => "city"
  | key_zip => "zip"
  | key_is_independent => "is_independent"
  | key_page => "page"
  end.

Definition read {A} (key : Key A) : Filters -> A :=
  match key in Key T return Filters -> T with
  | key_search => search
  | key_state => state
  | key_city => city
  | key_zip => zip
  | key_is_independent => is_independent
  | key_page => page
  end.

(** A login collaborator that accepts the default administrator and
    rejects everybody else with the server's message. *)
Definition demo_post (path : string) (credentials : string * string)
  : Auth.ApiError + Auth.LoginResponse.t :=
  if bool_decide (credentials = ("admin@pharma.local", "admin123"))
  then inr {| Auth.LoginResponse.access_token := "T";
              Auth.LoginResponse.user :=
                {| Auth.name := "Admin"; Auth.email := "admin@pharma.local" |} |}
  else inl {| Auth.detail := Some "Invalid credentials" |}.

Definition login_page (email password : string) : Login.World :=
  {| Login.form := {| Login.email := email; Login.password := password;
                      Login.error := ""; Login.loading := false |};
     Login.auth := {| Auth.user := None; Auth.loading := false; Auth.localStorage := ∅ |};
     Login.navigated := [] |}.



(** ** Properties *)

(** *** General facts about the step function *)

Lemma run_app c evs1 evs2 : run c (evs1 ++ evs2) = run (run c evs1) evs2.
Proof. apply fold_left_app. Qed.

(** A property kept by every event holds along every run. *)
Lemma run_invariant (P : Component -> Prop) :
  (forall c ev, P c -> P (step c ev)) ->
  forall evs c, P c -> P (run c evs).
Proof.
  intros Hstep evs. induction evs as [|ev evs IH]; intros c Hc; simpl.
  - exact Hc.
  - apply IH, Hstep, Hc.
Qed.

Lemma step_settled_pending c id outcome :
  id ∈ pending c ->
  step c (Settled id outcome) = fetchData_resume outcome (settle id c).
Proof. intros Hin. simpl. by rewrite bool_decide_eq_true_2. Qed.

Lemma step_settled_not_pending c id outcome :
  id ∉ pending c -> step c (Settled id outcome) = c.
Proof. intros Hin. simpl. by rewrite bool_decide_eq_false_2. Qed.

Lemma step_searchParams c ev : searchParams (step c ev) = searchParams c.
Proof.
  destruct ev; simpl; try reflexivity.
  - by destruct (pagination_shown c && negb (previous_disabled c)).
  - by destruct (pagination_shown c && negb (next_disabled c)).
  - case_bool_decide; [by destruct outcome | done].
Qed.

Lemma fetch_params_per_page f :
  fetch_params f !! "per_page" = Some (JS.VNumber (JS.Num 50)).
Proof. unfold fetch_params. apply lookup_insert_eq. Qed.


Lemma truthy_string s : JS.truthy (JS.VString s) = negb (bool_decide (s = "")).
Proof.
  simpl. destruct (String.eqb_spec s ""); subst.
  - by rewrite bool_decide_eq_true_2.
  - by rewrite bool_decide_eq_false_2.
Qed.

Lemma fetch_params_search f :
  fetch_params f !! "search"
  = if bool_decide (search f = "") then None else Some (JS.VString (search f)).
Proof.
  unfold fetch_params. rewrite !truthy_string.
  rewrite !lookup_insert_ne by done.
  destruct (is_independent f); simpl;
    rewrite lookup_insert_ne by done;
    repeat (case_bool_decide; simpl);
    rewrite ?lookup_insert_ne by done;
    rewrite ?lookup_insert_eq, ?lookup_empty; done.
Qed.

Lemma strict_neq_bool_null b : JS.strict_neq (JS.VBool b) JS.VNull = true.
Proof. by destruct b. Qed.

Lemma get_or_empty name url :
  JS.get_or name url "" = default "" (JS.get name url).
Proof.
  unfold JS.get_or. destruct (JS.get name url) as [v|]; [|done].
  rewrite truthy_string. case_bool_decide; simpl; congruence.
Qed.

Lemma requests_setFilters updater c :
  requests (setFilters updater c)
  = (requests c ++ [fetch_params (updater (filters c))])%list.
Proof. reflexivity. Qed.

(** Every event either leaves the log of requests alone or appends the
    request built from the filters it has just stored. *)
Lemma step_requests c ev :
  requests (step c ev) = requests c
  \/ requests (step c ev)
     = (requests c ++ [fetch_params (filters (step c ev))])%list.
Proof.
  destruct ev; simpl; auto.
  - destruct (pagination_shown c && negb (previous_disabled c)); auto.
  - destruct (pagination_shown c && negb (next_disabled c)); auto.
  - case_bool_decide; [destruct outcome|]; auto.
Qed.

(** *** Overlapping fetches *)

(** C1, as claimed, fails.  Request A (state CA) is issued at mount and
    request B (state NY) after it; B's response arrives first and A's
    second.  Both are applied, so the page displayed in the end is A's,
    not B's. *)
Lemma stale_response_overwrites_latest :
  let c := run two_in_flight [Settled 1%nat (inr page_B); Settled 0%nat (inr page_A)] in
  (fetch_params <$> [initial_filters [("state", "CA")];
                     updateFilter key_state "NY" (initial_filters [("state", "CA")])])
  = requests c
  /\ pending c = ∅
  /\ data c = page_A
  /\ data c <> page_B.
Proof. vm_compute. split; [|split; [|split]]; try reflexivity. discriminate. Qed.

(** C1, amended: nothing compares a response with the latest request.
    Every response of a pending request replaces the displayed page, so
    after two pending requests have both resolved the page displayed is the
    one that arrived last, whichever request was issued first. *)
Theorem last_arrival_is_displayed (c : Component) (a b : nat) (res_a res_b : ResultPage.t) :
  a <> b -> a ∈ pending c -> b ∈ pending c ->
  data (step c (Settled a (inr res_a))) = res_a
  /\ data (run c [Settled a (inr res_a); Settled b (inr res_b)]) = res_b.
Proof.
  intros Hab Ha Hb. split.
  - by rewrite step_settled_pending.
  - unfold run. cbn [fold_left].
    rewrite (step_settled_pending c a) by done.
    rewrite step_settled_pending; [done|].
    cbn. set_solver.
Qed.

Lemma last_arrival_is_displayed_witness :
  data (run two_in_flight [Settled 0%nat (inr page_A); Settled 1%nat (inr page_B)]) = page_B
  /\ data (run two_in_flight [Settled 1%nat (inr page_B); Settled 0%nat (inr page_A)]) = page_A.
Proof.
  split.
  - apply (last_arrival_is_displayed two_in_flight 0 1 page_A page_B);
      [discriminate | vm_compute; reflexivity | vm_compute; reflexivity].
  - apply (last_arrival_is_displayed two_in_flight 1 0 page_B page_A);
      [discriminate | vm_compute; reflexivity | vm_compute; reflexivity].
Defined.

(** *** The URL *)

(** C2, as claimed, fails: after the state filter is set to CA on a page
    opened without parameters, the criteria say CA and the URL still has no
    [state] parameter, so reading the URL back does not give the criteria. *)
Lemma url_left_behind_by_filter_change :
  let c := step (mount []) (Change key_state "CA") in
  state (filters c) = "CA"
  /\ JS.get "state" (searchParams c) = None
  /\ initial_filters (searchParams c) <> filters c.
Proof. vm_compute. split; [|split]; try reflexivity. discriminate. Qed.

(** C2, amended: the URL parameters are read once, for the initial
    criteria, and no event writes them: a filter or page change stores the
    new criteria and issues a fetch, and leaves the URL as it was. *)
Theorem url_read_once_never_written (url : JS.URLSearchParams) (evs : list Event) :
  filters (mount url) = initial_filters url
  /\ searchParams (run (mount url) evs) = url
  /\ forall c ev, searchParams (step c ev) = searchParams c.
Proof.
  split; [reflexivity|]. split; [|apply step_searchParams].
  apply (run_invariant (fun c => searchParams c = url)); [|reflexivity].
  intros c ev Hc. by rewrite step_searchParams.
Qed.

(** *** A fetch that fails *)

(** C3, as claimed, fails on its last part.  An error flag would be a
    function of the stored state that is set after a failed fetch and clear
    after a successful one; the state after a failure is the state after
    an answer with the page already displayed, so there is none. *)
Lemma no_error_flag_in_state :
  view (step (mount []) (Settled 0%nat (inl "Network Error")))
  = view (step (mount []) (Settled 0%nat (inr empty_page)))
  /\ ~ exists error : ResultPage.t * list (string * Z) * bool * Filters * bool -> bool,
         forall c id e res, id ∈ pending c ->
           error (view (step c (Settled id (inl e)))) = true
           /\ error (view (step c (Settled id (inr res)))) = false.
Proof.
  assert (Heq : view (step (mount []) (Settled 0%nat (inl "Network Error")))
                = view (step (mount []) (Settled 0%nat (inr empty_page))))
    by (vm_compute; reflexivity).
  split; [exact Heq|].
  intros [error Herror].
  destruct (Herror (mount []) 0%nat "Network Error" empty_page) as [Hset Hclear].
  { vm_compute. reflexivity. }
  pose proof (eq_trans (eq_sym Hset) (eq_trans (f_equal error Heq) Hclear)).
  discriminate.
Qed.

(** C3, amended: when a pending listing fetch fails, the displayed page
    and the criteria are left as they were, [loading] becomes false, the
    error is written to the console, and no request is issued again. *)
Theorem failed_fetch_keeps_page (c : Component) (id : nat) (e : ApiError) :
  id ∈ pending c ->
  let c' := step c (Settled id (inl e)) in
  data c' = data c
  /\ loading c' = false
  /\ console c' = (console c ++ [e])%list
  /\ filters c' = filters c
  /\ requests c' = requests c.
Proof. intros Hin c'. subst c'. by rewrite step_settled_pending. Qed.

Lemma failed_fetch_keeps_page_witness :
  let c := step two_in_flight (Settled 0%nat (inr page_A)) in
  let c' := step c (Settled 1%nat (inl "timeout")) in
  data c' = page_A /\ loading c' = false /\ console c' = ["timeout"].
Proof.
  intros c c'.
  destruct (failed_fetch_keeps_page c 1 "timeout") as (Hd & Hl & Hc & _).
  { vm_compute. reflexivity. }
  split; [|split].
  - etrans; [exact Hd | reflexivity].
  - exact Hl.
  - etrans; [exact Hc | reflexivity].
Defined.

(** *** Pagination *)

(** C4: a filter change stores page 1, whatever the field and the value
    (also when the field is [page] itself). *)
Theorem filter_change_resets_page {A} (key : Key A) (value : A) :
  (forall prev, page (updateFilter key value prev) = JS.Num 1)
  /\ (forall c, page (filters (step c (Change key value))) = JS.Num 1).
Proof. split; intros; by destruct key. Qed.




(** *** Initial criteria *)

(** C6, as claimed, fails for an invalid page: [parseInt] of a text that
    does not start with a number is NaN, and a number below 1 is kept. *)
Lemma invalid_page_is_not_defaulted :
  page (initial_filters [("page", "abc")]) = JS.NaN
  /\ page (initial_filters [("page", "abc")]) <> JS.Num 1
  /\ page (initial_filters [("page", "-3")]) = JS.Num (-3).
Proof. vm_compute. split; [|split]; try reflexivity. discriminate. Qed.

(** C6, amended: a missing or empty parameter gives the default of its
    field (empty text, no state, city or zip filter, independent only,
    page 1); a text parameter that is present is taken as it is;
    [is_independent] is false only for the text [false]; a page parameter
    that is present and not empty is whatever [parseInt] makes of it,
    without validation. *)
Theorem initial_filters_defaults (url : JS.URLSearchParams) :
  let f := initial_filters url in
  search f = default "" (JS.get "search" url)
  /\ state f = default "" (JS.get "state" url)
  /\ city f = default "" (JS.get "city" url)
  /\ zip f = default "" (JS.get "zip" url)
  /\ (is_independent f = false <-> JS.get "is_independent" url = Some "false")
  /\ (JS.get "page" url = None \/ JS.get "page" url = Some "" -> page f = JS.Num 1)
  /\ (forall v, JS.get "page" url = Some v -> v <> "" -> page f = JS.parseInt v).
Proof.
  cbn. rewrite !get_or_empty. repeat split; try reflexivity.
  - intros H. apply negb_false_iff, bool_decide_eq_true in H. exact H.
  - intros H. apply negb_false_iff, bool_decide_eq_true. exact H.
  - unfold JS.get_or. intros [-> | ->]; reflexivity.
  - unfold JS.get_or. intros v -> Hv. rewrite truthy_string.
    by rewrite bool_decide_eq_false_2.
Qed.

Lemma initial_filters_defaults_witness :
  page (initial_filters []) = JS.Num 1
  /\ page (initial_filters [("search", "cvs"); ("page", "")]) = JS.Num 1
  /\ page (initial_filters [("page", "12")]) = JS.Num 12
  /\ is_independent (initial_filters [("is_independent", "false")]) = false.
Proof.
  split; [|split; [|split]].
  - apply (initial_filters_defaults []). left. reflexivity.
  - apply (initial_filters_defaults [("search", "cvs"); ("page", "")]).
    right. reflexivity.
  - destruct (initial_filters_defaults [("page", "12")]) as (_ & _ & _ & _ & _ & _ & H).
    etrans; [apply (H "12"); [reflexivity | discriminate] | reflexivity].
  - apply (initial_filters_defaults [("is_independent", "false")]). reflexivity.
Defined.

(** *** The outgoing query *)

(** C7, as claimed, fails: the text is not trimmed.  A search text of one
    space is empty after trimming and is sent all the same. *)
Lemma blank_search_is_sent :
  (let f := updateFilter key_search " " (initial_filters []) in
   JS.trim (search f) = ""
   /\ fetch_params f !! "search" = Some (JS.VString " "))
  /\ ~ (forall f, is_Some (fetch_params f !! "search") <-> JS.trim (search f) <> "").
Proof.
  assert (Hsent : fetch_params (updateFilter key_search " " (initial_filters []))
                  !! "search" = Some (JS.VString " ")) by (vm_compute; reflexivity).
  split; [split; [reflexivity | exact Hsent]|].
  intros Hclaim.
  destruct (Hclaim (updateFilter key_search " " (initial_filters []))) as [Hdir _].
  apply Hdir; [rewrite Hsent; eauto | reflexivity].
Qed.

(** C7, amended: the [search] parameter is in the query exactly when the
    text is not the empty string, and then it is the text as typed; the
    fetch issued when the text is set to the empty string has no [search]
    parameter. *)
Theorem search_sent_iff_not_empty (f : Filters) :
  (is_Some (fetch_params f !! "search") <-> search f <> "")
  /\ (search f <> "" -> fetch_params f !! "search" = Some (JS.VString (search f)))
  /\ (forall c, exists params,
        last (requests (step c (Change key_search ""))) = Some params
        /\ params !! "search" = None).
Proof.
  rewrite fetch_params_search. split; [|split].
  - case_bool_decide; split; intros H'; try done.
    all: by destruct H' as [? ?].
  - intros Hne. by rewrite bool_decide_eq_false_2.
  - intros c. eexists. split.
    + cbn [step]. rewrite requests_setFilters. apply last_snoc.
    + rewrite fetch_params_search. by rewrite bool_decide_eq_true_2.
Qed.

Lemma search_sent_iff_not_empty_witness :
  fetch_params (updateFilter key_search "cvs" (initial_filters [])) !! "search"
  = Some (JS.VString "cvs").
Proof.
  apply (search_sent_iff_not_empty (updateFilter key_search "cvs" (initial_filters []))).
  discriminate.
Defined.

(** What the export request does carry: [state], [is_independent] and
    [search], each under the rule of the listing query, and nothing else. *)
Lemma export_params_lookup (f : Filters) (k : string) :
  (list_to_map (export_params f) : gmap string string) !! k
  = if bool_decide (k = "state" \/ k = "is_independent" \/ k = "search")
    then JS.to_string <$> fetch_params f !! k
    else None.
Proof.
  unfold export_params, fetch_params.
  rewrite !truthy_string, !strict_neq_bool_null.
  destruct (bool_decide (state f = "")), (bool_decide (search f = "")),
    (bool_decide (city f = "")), (bool_decide (zip f = ""));
    cbn -[lookup insert]; cbn [list_to_map foldr uncurry fst snd];
    repeat (rewrite lookup_insert; case_decide; subst; try done);
    rewrite ?lookup_empty; try done.
  all: by case_bool_decide.
Qed.

(** C8 fails on the code: with a city (or zip) filter set, the listing
    query carries it and the export request does not, so the export is not
    the listing query minus its pagination parameters. *)
Theorem export_drops_city_and_zip :
  let f := updateFilter key_zip "787" (updateFilter key_city "Austin" (initial_filters [])) in
  fetch_params f !! "city" = Some (JS.VString "Austin")
  /\ fetch_params f !! "zip" = Some (JS.VString "787")
  /\ JS.get "city" (export_params f) = None
  /\ JS.get "zip" (export_params f) = None
  /\ export_params f = [("is_independent", "true")]
  /\ (list_to_map (export_params f) : gmap string string)
     <> JS.to_string <$> delete "page" (delete "per_page" (fetch_params f)).
Proof.
  vm_compute. repeat (split; [reflexivity|]). discriminate.
Qed.

(** C10: every listing request, from the one issued at mount on and
    whatever the URL and the events since, has [per_page = 50]; the
    request builder sets it last and reads it from nowhere. *)
Theorem per_page_is_always_50 (url : JS.URLSearchParams) (evs : list Event) :
  (forall f, fetch_params f !! "per_page" = Some (JS.VNumber (JS.Num 50)))
  /\ requests (mount url) = [fetch_params (initial_filters url)]
  /\ Forall (fun params : gmap string JS.value =>
               params !! "per_page" = Some (JS.VNumber (JS.Num 50)))
       (requests (run (mount url) evs)).
Proof.
  split; [apply fetch_params_per_page|]. split; [reflexivity|].
  apply (run_invariant (fun c =>
    Forall (fun params : gmap string JS.value =>
              params !! "per_page" = Some (JS.VNumber (JS.Num 50))) (requests c))).
  - intros c ev Hc. destruct (step_requests c ev) as [-> | ->]; [exact Hc|].
    apply Forall_app. split; [exact Hc|].
    constructor; [apply fetch_params_per_page | constructor].
  - constructor; [apply fetch_params_per_page | constructor].
Qed.

(** *** The session store *)

(** C9: when the login collaborator answers, [login] stores the token
    under [token], stores the user, which makes [ProtectedRoute] render the
    protected views, and returns the answer; when it fails, [login] fails
    with the collaborator's error and the provider and the storage are left
    exactly as they were. *)
Theorem login_contract
    (post : string -> string * string -> Auth.ApiError + Auth.LoginResponse.t)
    (email password : string) (s : Auth.Provider) :
  match post "/auth/login" (email, password) with
  | inr res =>
      Auth.login post email password s
      = (inr res,
         {| Auth.user := Some (Auth.LoginResponse.user res);
            Auth.loading := Auth.loading s;
            Auth.localStorage :=
              <["token" := Auth.LoginResponse.access_token res]> (Auth.localStorage s) |})
      /\ Auth.localStorage (Auth.login post email password s).2 !! "token"
         = Some (Auth.LoginResponse.access_token res)
      /\ Auth.ProtectedRoute (Auth.login post email password s).2 = Auth.Children
  | inl err =>
      Auth.login post email password s = (inl err, s)
      /\ Auth.ProtectedRoute (Auth.login post email password s).2 = Auth.ProtectedRoute s
  end.
Proof.
  unfold Auth.login, mbind, Auth.M_bind, Auth.await.
  destruct (post "/auth/login" (email, password)) as [err | res]; cbn.
  - split; reflexivity.
  - split; [reflexivity|]. split; [apply lookup_insert_eq | reflexivity].
Qed.

(** *** Worked examples *)

(** The second scenario of the specification: the default administrator
    logs in on a fresh browser. *)
Example login_scenario :
  let post := fun (_ : string) (_ : string * string) =>
    inr {| Auth.LoginResponse.access_token := "T";
           Auth.LoginResponse.user :=
             {| Auth.name := "Admin"; Auth.email := "admin@pharma.local" |} |} in
  let s := (Auth.login post "admin@pharma.local" "admin123" (Auth.initial ∅)).2 in
  Auth.localStorage s !! "token" = Some "T" /\ Auth.ProtectedRoute s = Auth.Children.
Proof. vm_compute. split; reflexivity. Qed.

(** After [logout] the token is gone and the protected views redirect. *)
Lemma logout_clears_session (s : Auth.Provider) :
  let s' := (Auth.logout s).2 in
  Auth.localStorage s' !! "token" = None
  /\ Auth.ProtectedRoute s' = Auth.Navigate "/login".
Proof. cbn. split; [apply lookup_delete_eq | reflexivity]. Qed.

(** The third scenario: page 3 of 5 displayed, "next" twice with the
    answers arriving in between, then "next" does nothing. *)
Example next_scenario :
  let page_n n := {| ResultPage.data := []; ResultPage.total := 230;
                     ResultPage.page := n; ResultPage.total_pages := 5 |} in
  let c := run (mount [("page", "3")])
             [Settled 0%nat (inr (page_n 3)); ClickNext; Settled 1%nat (inr (page_n 4));
              ClickNext; Settled 2%nat (inr (page_n 5))] in
  page (filters c) = JS.Num 5 /\ length (requests c) = 3%nat /\ step c ClickNext = c.
Proof. vm_compute. split; [|split]; reflexivity. Qed.

Example parseInt_7 : JS.parseInt "7" = JS.Num 7.
Proof. reflexivity. Qed.

Example parseInt_hex : JS.parseInt "  -0x1Fz" = JS.Num (-31).
Proof. reflexivity. Qed.

Example parseInt_px : JS.parseInt "12px" = JS.Num 12.
Proof. reflexivity. Qed.

Example parseInt_abc : JS.parseInt "abc" = JS.NaN.
Proof. reflexivity. Qed.

Example to_string_neg : JS.to_string (JS.VNumber (JS.Num (-1050))) = "-1050".
Proof. reflexivity. Qed.

Example to_string_zero : JS.to_string (JS.VNumber (JS.Num 0)) = "0".
Proof. reflexivity. Qed.

(** ** Further properties of the code *)

(** A property kept by every step holds after every run, for any machine. *)
Lemma fold_left_invariant {S E : Type} (f : S -> E -> S) (P : S -> Prop) :
  (forall s e, P s -> P (f s e)) ->
  forall es s, P s -> P (fold_left f es s).
Proof.
  intros Hstep es. induction es as [|e es IH]; intros s Hs; simpl.
  - exact Hs.
  - apply IH, Hstep, Hs.
Qed.

(** *** Session bootstrap, logout and reload *)

Lemma bootstrap_cases (me : Auth.ApiError + Auth.User) (storage : gmap string string) :
  Auth.bootstrap me (Auth.initial storage)
  = (inr tt,
     match storage !! "token", me with
     | Some t, inr u =>
         if bool_decide (t = "")
         then {| Auth.user := None; Auth.loading := false; Auth.localStorage := storage |}
         else {| Auth.user := Some u; Auth.loading := false; Auth.localStorage := storage |}
     | Some t, inl _ =>
         if bool_decide (t = "")
         then {| Auth.user := None; Auth.loading := false; Auth.localStorage := storage |}
         else {| Auth.user := None; Auth.loading := false;
                 Auth.localStorage := delete "token" storage |}
     | None, _ =>
         {| Auth.user := None; Auth.loading := false; Auth.localStorage := storage |}
     end).
Proof.
  unfold Auth.bootstrap, mbind, Auth.M_bind, Auth.getItem, Auth.initial.
  cbn -[JS.truthy].
  destruct (storage !! "token") as [t|]; [|by destruct me].
  rewrite truthy_string. case_bool_decide; destruct me; reflexivity.
Qed.

(** X1: the mount effect of [AuthProvider] never throws and always ends
    the loading state; the protected views are admitted exactly when a
    non-empty token was stored and the identity check succeeded; and no
    storage key other than [token] is touched. *)
Theorem bootstrap_settles (me : Auth.ApiError + Auth.User) (storage : gmap string string) :
  let r := Auth.bootstrap me (Auth.initial storage) in
  r.1 = inr tt
  /\ Auth.loading r.2 = false
  /\ (Auth.ProtectedRoute r.2 = Auth.Children
      <-> exists t u, storage !! "token" = Some t /\ t <> "" /\ me = inr u)
  /\ (forall k, k <> "token" -> Auth.localStorage r.2 !! k = storage !! k).
Proof.
  cbn zeta. rewrite bootstrap_cases. cbn [fst snd].
  destruct (storage !! "token") as [t|] eqn:Ht; [destruct me as [e|u]|];
    try case_bool_decide; cbn; (split; [done|]); (split; [done|]); split;
    try (intros k Hk; by rewrite ?lookup_delete_ne);
    try (split; [done | intros (t' & u' & ? & ? & ?); congruence]).
  split; [intros _; eauto | done].
Qed.

Lemma bootstrap_settles_witness :
  Auth.localStorage
    (Auth.bootstrap (inl {| Auth.detail := None |})
       (Auth.initial {[ "token" := "expired"; "theme" := "dark" ]})).2 !! "theme"
  = Some "dark".
Proof.
  destruct (bootstrap_settles (inl {| Auth.detail := None |})
              {[ "token" := "expired"; "theme" := "dark" ]}) as (_ & _ & _ & Hkeys).
  etrans; [apply Hkeys; discriminate | reflexivity].
Defined.

(** X2: a stored token that the identity check rejects (expired, invalid,
    network down) is removed from the storage, and the visitor is sent to
    the login page. *)
Theorem bootstrap_drops_rejected_token
    (e : Auth.ApiError) (storage : gmap string string) (t : string) :
  storage !! "token" = Some t -> t <> "" ->
  let s := (Auth.bootstrap (inl e) (Auth.initial storage)).2 in
  Auth.localStorage s !! "token" = None
  /\ Auth.user s = None
  /\ Auth.ProtectedRoute s = Auth.Navigate "/login".
Proof.
  intros Ht Hne. cbn zeta. rewrite bootstrap_cases, Ht.
  rewrite bool_decide_eq_false_2 by done. cbn.
  split; [apply lookup_delete_eq | done].
Qed.

Lemma bootstrap_drops_rejected_token_witness :
  Auth.localStorage
    (Auth.bootstrap (inl {| Auth.detail := Some "Token expired" |})
       (Auth.initial {[ "token" := "old" ]})).2 !! "token" = None.
Proof.
  apply (bootstrap_drops_rejected_token {| Auth.detail := Some "Token expired" |}
           {[ "token" := "old" ]} "old"); [reflexivity | discriminate].
Defined.

(** X3: a session survives a reload.  After a login that returned a
    non-empty token, a fresh [AuthProvider] over the same storage whose
    identity check answers [u] admits the protected views as [u] and keeps
    the token. *)
Theorem session_survives_reload
    (post : string -> string * string -> Auth.ApiError + Auth.LoginResponse.t)
    (email password : string) (res : Auth.LoginResponse.t) (u : Auth.User)
    (s : Auth.Provider) :
  post "/auth/login" (email, password) = inr res ->
  Auth.LoginResponse.access_token res <> "" ->
  let stored := Auth.localStorage (Auth.login post email password s).2 in
  let s' := (Auth.bootstrap (inr u) (Auth.initial stored)).2 in
  Auth.user s' = Some u
  /\ Auth.ProtectedRoute s' = Auth.Children
  /\ Auth.localStorage s' !! "token" = Some (Auth.LoginResponse.access_token res).
Proof.
  intros Hpost Hne. cbn zeta. rewrite bootstrap_cases.
  unfold Auth.login, mbind, Auth.M_bind, Auth.await. rewrite Hpost. cbn.
  rewrite lookup_insert_eq, bool_decide_eq_false_2 by done. cbn.
  split; [done|]. split; [done | apply lookup_insert_eq].
Qed.

Lemma session_survives_reload_witness :
  let u := {| Auth.name := "Admin"; Auth.email := "admin@pharma.local" |} in
  let stored :=
    Auth.localStorage
      (Auth.login demo_post "admin@pharma.local" "admin123" (Auth.initial ∅)).2 in
  Auth.ProtectedRoute (Auth.bootstrap (inr u) (Auth.initial stored)).2 = Auth.Children.
Proof.
  intros u stored.
  apply (session_survives_reload demo_post "admin@pharma.local" "admin123"
           {| Auth.LoginResponse.access_token := "T"; Auth.LoginResponse.user := u |}
           u (Auth.initial ∅)); [reflexivity | discriminate].
Defined.

(** X4: [logout] never fails, removes the token and the user and nothing
    else, and is idempotent; after the logout button of the layout the
    protected views redirect, the last navigation is to [/login], and a
    reload stays anonymous whatever the identity check would answer. *)
Theorem logout_ends_session (w : Login.World) (me : Auth.ApiError + Auth.User) :
  let s := Login.auth w in
  let w' := Layout.handleLogout w in
  (Auth.logout s).1 = inr tt
  /\ Auth.logout (Auth.logout s).2 = Auth.logout s
  /\ Auth.localStorage (Login.auth w') = delete "token" (Auth.localStorage s)
  /\ Auth.ProtectedRoute (Login.auth w') = Auth.Navigate "/login"
  /\ last (Login.navigated w') = Some "/login"
  /\ Login.form w' = Login.form w
  /\ Auth.ProtectedRoute
       (Auth.bootstrap me (Auth.initial (Auth.localStorage (Login.auth w')))).2
     = Auth.Navigate "/login".
Proof.
  cbn zeta. rewrite bootstrap_cases.
  unfold Layout.handleLogout, Auth.logout, mbind, Auth.M_bind. cbn.
  rewrite lookup_delete_eq, delete_delete_eq, last_snoc. by destruct me.
Qed.

(** *** The login form *)


(** X5: a submit that the server accepts stores the session, navigates to
    [/], and leaves the form without an error message and not loading,
    whatever message an earlier attempt had left. *)
Theorem submit_accepted
    (post : string -> string * string -> Auth.ApiError + Auth.LoginResponse.t)
    (w : Login.World) (res : Auth.LoginResponse.t) :
  post "/auth/login" (Login.email (Login.form w), Login.password (Login.form w)) = inr res ->
  let w' := Login.handleSubmit post w in
  Login.navigated w' = (Login.navigated w ++ ["/"])%list
  /\ Login.error (Login.form w') = ""
  /\ Login.error_shown w' = false
  /\ Login.loading (Login.form w') = false
  /\ Auth.ProtectedRoute (Login.auth w') = Auth.Children
  /\ Auth.localStorage (Login.auth w') !! "token"
     = Some (Auth.LoginResponse.access_token res).
Proof.
  intros Hpost. cbn zeta.
  unfold Login.handleSubmit, Login.handleSubmit_end, Login.handleSubmit_begin,
    Login.error_shown, Auth.login, mbind, Auth.M_bind, Auth.await.
  cbn. rewrite Hpost. cbn.
  repeat (split; [reflexivity|]). apply lookup_insert_eq.
Qed.

Lemma submit_accepted_witness :
  let w' := Login.handleSubmit demo_post (login_page "admin@pharma.local" "admin123") in
  Login.navigated w' = ["/"] /\ Auth.ProtectedRoute (Login.auth w') = Auth.Children.
Proof.
  intros w'.
  destruct (submit_accepted demo_post (login_page "admin@pharma.local" "admin123")
              {| Auth.LoginResponse.access_token := "T";
                 Auth.LoginResponse.user :=
                   {| Auth.name := "Admin"; Auth.email := "admin@pharma.local" |} |})
    as (Hnav & _ & _ & _ & Hroute & _); [reflexivity|].
  split; [exact Hnav | exact Hroute].
Defined.



(** *** The directory: requests and what is displayed *)

(** X7: in every state reached from the mount, the listing request issued
    last is the one built from the current criteria: every change of the
    criteria has issued its request, and nothing else has issued one. *)
Theorem latest_request_matches_filters (url : JS.URLSearchParams) (evs : list Event) :
  let c := run (mount url) evs in
  last (requests c) = Some (fetch_params (filters c)).
Proof.
  cbn zeta.
  apply (fold_left_invariant step
           (fun c => last (requests c) = Some (fetch_params (filters c))));
    [|reflexivity].
  intros c ev Hc. destruct ev; cbn [step].
  - unfold setFilters, fetchData, api_get, setLoading. cbn. apply last_snoc.
  - destruct (pagination_shown c && negb (previous_disabled c)); [|exact Hc].
    unfold setFilters, fetchData, api_get, setLoading. cbn. apply last_snoc.
  - destruct (pagination_shown c && negb (next_disabled c)); [|exact Hc].
    unfold setFilters, fetchData, api_get, setLoading. cbn. apply last_snoc.
  - exact Hc.
  - exact Hc.
  - exact Hc.
  - case_bool_decide; [destruct outcome|]; exact Hc.
Qed.



(** X9: the table changes only when a pending request succeeds, and then
    it shows that answer: a filter change, a page click or a failure leaves
    the rows that were displayed.  Responses, the export button, the panel
    toggle and the list of states never change the criteria and never
    issue a listing request. *)
Theorem table_changes_only_on_success (c : Component) (ev : Event) :
  data (step c ev)
  = match ev with
    | Settled id (inr res) => if bool_decide (id ∈ pending c) then res else data c
    | _ => data c
    end
  /\ match ev with
     | Settled _ _ | ClickExport | ToggleFilters _ | StatesLoaded _ =>
         filters (step c ev) = filters c /\ requests (step c ev) = requests c
     | _ => True
     end.
Proof.
  destruct ev; cbn [step]; try (split; [reflexivity | done]).
  - split; [|done]. by destruct (pagination_shown c && negb (previous_disabled c)).
  - split; [|done]. by destruct (pagination_shown c && negb (next_disabled c)).
  - destruct outcome; case_bool_decide; done.
Qed.

(** X10: the export button only opens a window: the state that is rendered,
    the requests, the pending promises and the console are left alone.  The
    query it opens names no parameter twice and always has
    [is_independent]. *)
Theorem export_only_opens_a_window (c : Component) :
  let c' := step c ClickExport in
  view c' = view c
  /\ requests c' = requests c
  /\ pending c' = pending c
  /\ console c' = console c
  /\ opened c' = (opened c ++ [export_params (filters c)])%list
  /\ NoDup (export_params (filters c)).*1
  /\ JS.get "is_independent" (export_params (filters c))
     = Some (JS.to_string (JS.VBool (is_independent (filters c)))).
Proof.
  cbn zeta. repeat (split; [reflexivity|]).
  unfold export_params. rewrite !truthy_string, !strict_neq_bool_null.
  destruct (bool_decide (state (filters c) = "")),
    (bool_decide (search (filters c) = "")); cbn;
    (split; [|reflexivity]);
    repeat (apply NoDup_cons; split; [by rewrite ?elem_of_cons, elem_of_nil; intuition|]);
    apply NoDup_nil_2.
Qed.

(** The listing query, key by key. *)
Lemma fetch_params_lookup (f : Filters) (k : string) :
  fetch_params f !! k
  = if bool_decide (k = "per_page") then Some (JS.VNumber (JS.Num 50))
    else if bool_decide (k = "page") then Some (JS.VNumber (page f))
    else if bool_decide (k = "is_independent") then Some (JS.VBool (is_independent f))
    else if bool_decide (k = "zip")
      then (if bool_decide (zip f = "") then None else Some (JS.VString (zip f)))
    else if bool_decide (k = "city")
      then (if bool_decide (city f = "") then None else Some (JS.VString (city f)))
    else if bool_decide (k = "state")
      then (if bool_decide (state f = "") then None else Some (JS.VString (state f)))
    else if bool_decide (k = "search")
      then (if bool_decide (search f = "") then None else Some (JS.VString (search f)))
    else None.
Proof.
  unfold fetch_params. rewrite !truthy_string, !strict_neq_bool_null.
  destruct (bool_decide (zip f = "")), (bool_decide (city f = "")),
    (bool_decide (state f = "")), (bool_decide (search f = ""));
    cbn -[lookup insert];
    repeat (rewrite lookup_insert; case_decide; subst; try done);
    rewrite ?lookup_empty;
    repeat (case_bool_decide; try done).
Qed.

(** X12: what a listing query contains.  [state], [city] and [zip] are
    sent exactly when they are not empty; [is_independent] is always sent,
    so an unchecked box asks for [is_independent = false] instead of
    dropping the filter; and no key outside the seven of the listing
    endpoint is ever sent. *)
Theorem listing_query_contents (f : Filters) :
  fetch_params f !! "state"
  = (if bool_decide (state f = "") then None else Some (JS.VString (state f)))
  /\ fetch_params f !! "city"
     = (if bool_decide (city f = "") then None else Some (JS.VString (city f)))
  /\ fetch_params f !! "zip"
     = (if bool_decide (zip f = "") then None else Some (JS.VString (zip f)))
  /\ fetch_params f !! "is_independent" = Some (JS.VBool (is_independent f))
  /\ dom (fetch_params f)
     ⊆ {[ "search"; "state"; "city"; "zip"; "is_independent"; "page"; "per_page" ]}.
Proof.
  repeat (split; [by rewrite fetch_params_lookup|]).
  intros k [v Hk]%elem_of_dom. rewrite fetch_params_lookup in Hk.
  repeat (case_bool_decide; [set_solver|]). done.
Qed.

(** X13: a filter change writes the field it names and page 1 and nothing
    else: the changed field reads back the new value and every other field
    but [page] keeps its value. *)
Theorem filter_change_touches_one_field {A B}
    (key : Key A) (value : A) (other : Key B) (prev : Filters) :
  (key_name key <> "page" -> read key (updateFilter key value prev) = value)
  /\ (key_name other <> key_name key -> key_name other <> "page" ->
      read other (updateFilter key value prev) = read other prev).
Proof. split; destruct key; try destruct other; cbn; done. Qed.

Lemma filter_change_touches_one_field_witness :
  let f := updateFilter key_city "Austin" (initial_filters [("state", "TX"); ("page", "4")]) in
  read key_city f = "Austin" /\ read key_state f = "TX".
Proof.
  intros f. split.
  - apply (filter_change_touches_one_field key_city "Austin" key_state). discriminate.
  - etrans.
    + apply (filter_change_touches_one_field key_city "Austin" key_state); discriminate.
    + reflexivity.
Defined.



(** X15: [loading] does not count the pending requests: whichever response
    arrives first, a success or a failure, clears it while the other
    request is still pending. *)
Theorem loading_ends_with_first_response
    (c : Component) (a b : nat) (outcome : ApiError + ResultPage.t) :
  a <> b -> a ∈ pending c -> b ∈ pending c ->
  let c' := step c (Settled a outcome) in
  loading c' = false /\ b ∈ pending c'.
Proof.
  intros Hab Ha Hb. cbn zeta. rewrite step_settled_pending by done.
  destruct outcome; cbn; (split; [done | set_solver]).
Qed.

Lemma loading_ends_with_first_response_witness :
  let c := step two_in_flight (Settled 0%nat (inl "timeout")) in
  loading c = false /\ 1%nat ∈ pending c.
Proof.
  apply (loading_ends_with_first_response two_in_flight 0 1 (inl "timeout"));
    [discriminate | vm_compute; reflexivity | vm_compute; reflexivity].
Defined.

(** *** A page number in the URL *)











(** *** The change log *)

Lemma request_params_lookup (p : Z) (type : string) :
  Changes.request_params p type !! "page" = Some (JS.VNumber (JS.Num p))
  /\ Changes.request_params p type !! "per_page" = Some (JS.VNumber (JS.Num 50))
  /\ Changes.request_params p type !! "change_type"
     = (if bool_decide (type = "") then None else Some (JS.VString type)).
Proof.
  unfold Changes.request_params. rewrite truthy_string.
  case_bool_decide; cbn -[lookup insert];
    repeat (rewrite lookup_insert; case_decide; try done).
Qed.

(** X17: in the change log the page never goes below 1: "previous" is
    disabled on the page of the criteria itself and every filter button
    stores page 1.  So every request it issues asks for a page of at least
    1, with [per_page = 50]. *)
Theorem changes_page_at_least_1 (evs : list Changes.Event) :
  let c := Changes.run Changes.mount evs in
  1 <= Changes.page c
  /\ Forall (fun params : gmap string JS.value =>
               params !! "per_page" = Some (JS.VNumber (JS.Num 50))
               /\ exists p, params !! "page" = Some (JS.VNumber (JS.Num p)) /\ 1 <= p)
       (Changes.requests c).
Proof.
  cbn zeta.
  set (Q := fun params : gmap string JS.value =>
              params !! "per_page" = Some (JS.VNumber (JS.Num 50))
              /\ exists p, params !! "page" = Some (JS.VNumber (JS.Num p)) /\ 1 <= p).
  assert (Hq : forall p type, 1 <= p -> Q (Changes.request_params p type)).
  { intros p type Hp. destruct (request_params_lookup p type) as (Hpage & Hper & _).
    split; [exact Hper | eauto]. }
  assert (Hrender : forall prev c,
            1 <= Changes.page c /\ Forall Q (Changes.requests c) ->
            1 <= Changes.page (Changes.rerender prev c)
            /\ Forall Q (Changes.requests (Changes.rerender prev c))).
  { intros prev c [Hp Hr]. unfold Changes.rerender. case_bool_decide; [done|].
    cbn. split; [exact Hp|]. apply Forall_app. split; [exact Hr|].
    constructor; [by apply Hq | constructor]. }
  apply (fold_left_invariant Changes.step
           (fun c => 1 <= Changes.page c /\ Forall Q (Changes.requests c))).
  - intros c ev [Hp Hr]. destruct ev; cbn [Changes.step].
    + destruct (Changes.types !! button); [|done]. apply Hrender. cbn. split; [lia | exact Hr].
    + unfold Changes.pagination_shown, Changes.previous_disabled.
      destruct (Z.leb_spec (Changes.page c) 1); rewrite ?andb_false_r; [done|].
      destruct (1 <? _); [|done]. apply Hrender. cbn. split; [lia | exact Hr].
    + destruct (Changes.pagination_shown c && negb (Changes.next_disabled c)); [|done].
      apply Hrender. cbn. split; [lia | exact Hr].
    + case_bool_decide; [|done]. cbn. done.
  - split; [cbn; lia|]. constructor; [exact (Hq 1 "" ltac:(lia)) | constructor].
Qed.

(** X18: the effect of the change log depends on the page and the filter
    themselves.  A click on the filter that is already selected, on page 1,
    changes nothing and issues no request; any other click on a filter
    button selects it, stores page 1 and issues exactly one request, for
    page 1 of that filter. *)
Theorem changes_filter_click (c : Changes.Component) (button : nat) (type : string) :
  Changes.types !! button = Some type ->
  let c' := Changes.step c (Changes.ClickType button) in
  (Changes.filter c = type /\ Changes.page c = 1 -> c' = c)
  /\ (Changes.filter c <> type \/ Changes.page c <> 1 ->
      Changes.filter c' = type
      /\ Changes.page c' = 1
      /\ Changes.loading c' = true
      /\ Changes.requests c'
         = (Changes.requests c ++ [Changes.request_params 1 type])%list).
Proof.
  intros Hb. cbn zeta. cbn [Changes.step]. rewrite Hb.
  unfold Changes.rerender. cbn. split.
  - intros [Hf Hp]. rewrite bool_decide_eq_true_2 by (split; congruence).
    destruct c; cbn in *. subst. reflexivity.
  - intros Hne. rewrite bool_decide_eq_false_2; [done|].
    intros [Hp Hf]. destruct Hne; congruence.
Qed.

Lemma changes_filter_click_witness :
  Changes.step Changes.mount (Changes.ClickType 0) = Changes.mount
  /\ Changes.requests (Changes.step Changes.mount (Changes.ClickType 2))
     = [Changes.request_params 1 ""; Changes.request_params 1 "updated"].
Proof.
  split.
  - apply (changes_filter_click Changes.mount 0 ""); [reflexivity|].
    split; reflexivity.
  - destruct (changes_filter_click Changes.mount 2 "updated") as [_ Hother];
      [reflexivity|].
    destruct Hother as (_ & _ & _ & Hreq); [left; discriminate|].
    etrans; [exact Hreq | reflexivity].
Defined.

(** *** The pipeline button of the dashboard *)

(** Until the two requests of the mount effect have settled the dashboard
    is in its initial state: no click gets through. *)
Lemma dashboard_initial (evs : list Dashboard.Event) :
  Dashboard.initial_pending (Dashboard.run Dashboard.mount evs) = true ->
  Dashboard.run Dashboard.mount evs = Dashboard.mount.
Proof.
  apply (fold_left_invariant Dashboard.step
           (fun c => Dashboard.initial_pending c = true -> c = Dashboard.mount));
    [|done].
  intros c ev Hc. destruct ev; cbn [Dashboard.step].
  - destruct (Dashboard.initial_pending c) eqn:Hi; [discriminate|].
    intros Hi'. congruence.
  - destruct (Dashboard.run_enabled c) eqn:Hen; [|exact Hc].
    cbn. intros Hinit. rewrite (Hc Hinit) in Hen. discriminate.
  - case_bool_decide as Hin; [|exact Hc].
    cbn. intros Hinit. rewrite (Hc Hinit) in Hin. cbn in Hin. set_solver.
Qed.

(** X19: the pipeline is never triggered twice at once.  In every state
    reached from the mount at most one trigger request is pending, and
    [triggering], which disables the button, is set exactly while one is. *)
Theorem at_most_one_trigger_in_flight (evs : list Dashboard.Event) :
  let c := Dashboard.run Dashboard.mount evs in
  (size (Dashboard.trigger_pending c) <= 1)%nat
  /\ (Dashboard.triggering c = true <-> Dashboard.trigger_pending c <> ∅).
Proof.
  cbn zeta.
  pose (Inv := fun c =>
    (Dashboard.triggering c = false /\ Dashboard.trigger_pending c = ∅)
    \/ (Dashboard.triggering c = true
        /\ exists id, Dashboard.trigger_pending c = {[ id ]})).
  assert (Hinv : Inv (Dashboard.run Dashboard.mount evs)).
  { apply (fold_left_invariant Dashboard.step Inv); [|by left].
    intros c ev Hc. destruct ev; cbn [Dashboard.step].
    - by destruct (Dashboard.initial_pending c).
    - unfold Dashboard.run_enabled.
      destruct Hc as [[Ht Hp] | [Ht Hp]]; rewrite Ht; cbn.
      + destruct (negb (Dashboard.loading c) && negb (Dashboard.status_running c));
          [|by left].
        right. cbn. split; [done|]. exists (Dashboard.triggers c).
        rewrite Hp. apply union_empty_r_L.
      + rewrite andb_false_r. by right.
    - case_bool_decide as Hin; [|exact Hc].
      left. cbn. split; [done|].
      destruct Hc as [[_ Hp] | [_ [id' Hp]]]; rewrite Hp in Hin |- *.
      + by apply elem_of_empty in Hin.
      + apply elem_of_singleton in Hin. subst id'. apply difference_diag_L. }
  destruct Hinv as [[Ht Hp] | [Ht [id Hp]]]; rewrite Ht, Hp.
  - rewrite size_empty. split; [lia|]. split; [discriminate | done].
  - rewrite size_singleton. split; [lia|]. split; [|done].
    intros _ Hempty. set_solver.
Qed.

(** X20: once the status reads [running], after a trigger that succeeded
    or from the server, the button stays disabled: whatever happens next,
    no trigger request is issued and the status still reads [running]
    (the page does not poll; only a reload reads the status again). *)
Theorem no_trigger_while_running (c : Dashboard.Component) (evs : list Dashboard.Event) :
  Dashboard.status_running c = true ->
  Dashboard.initial_pending c = false ->
  let c' := Dashboard.run c evs in
  Dashboard.triggers c' = Dashboard.triggers c
  /\ Dashboard.status_running c' = true
  /\ Dashboard.run_enabled c' = false.
Proof.
  intros Hrun Hinit. cbn zeta.
  pose (Inv := fun c' =>
    Dashboard.triggers c' = Dashboard.triggers c
    /\ Dashboard.status_running c' = true
    /\ Dashboard.initial_pending c' = false).
  assert (Hinv : Inv (Dashboard.run c evs)).
  { apply (fold_left_invariant Dashboard.step Inv); [|done].
    intros c' ev (Ht & Hr & Hi). destruct ev; cbn [Dashboard.step].
    - by rewrite Hi.
    - unfold Dashboard.run_enabled. rewrite Hr, orb_true_r, andb_false_r. done.
    - case_bool_decide; [|done]. by destruct outcome. }
  destruct Hinv as (Ht & Hr & _).
  split; [exact Ht|]. split; [exact Hr|].
  unfold Dashboard.run_enabled. by rewrite Hr, orb_true_r, andb_false_r.
Qed.

Lemma no_trigger_while_running_witness :
  let c := Dashboard.run Dashboard.mount
             [Dashboard.Loaded (inr (∅, {[ "status" := JS.VString "completed" ]}));
              Dashboard.ClickRun; Dashboard.TriggerSettled 0 (inr tt)] in
  Dashboard.triggers c = 1%nat
  /\ Dashboard.triggers (Dashboard.run c [Dashboard.ClickRun; Dashboard.ClickRun]) = 1%nat.
Proof.
  intros c. split; [reflexivity|].
  destruct (no_trigger_while_running c [Dashboard.ClickRun; Dashboard.ClickRun])
    as (Ht & _); [reflexivity | reflexivity |].
  etrans; [exact Ht | reflexivity].
Defined.

(** X21: the first load is all or nothing, and nothing precedes it.  While
    the two requests of the mount effect are awaited no trigger has been
    issued; if either of them fails, neither the statistics nor the status
    is stored, the error is logged, the spinner ends, and the button is
    enabled. *)
Theorem dashboard_load_failure (evs : list Dashboard.Event) (e : Directory.ApiError) :
  Dashboard.initial_pending (Dashboard.run Dashboard.mount evs) = true ->
  Dashboard.triggers (Dashboard.run Dashboard.mount evs) = 0%nat
  /\ let c' := Dashboard.step (Dashboard.run Dashboard.mount evs)
                 (Dashboard.Loaded (inl e)) in
     Dashboard.stats c' = None
     /\ Dashboard.pipelineStatus c' = None
     /\ Dashboard.loading c' = false
     /\ Dashboard.console c' = [e]
     /\ Dashboard.run_enabled c' = true.
Proof. intros Hinit. rewrite (dashboard_initial evs Hinit). cbn. done. Qed.

Lemma dashboard_load_failure_witness :
  Dashboard.run_enabled
    (Dashboard.run Dashboard.mount
       [Dashboard.ClickRun; Dashboard.Loaded (inl "Network Error")]) = true.
Proof.
  apply (dashboard_load_failure [Dashboard.ClickRun] "Network Error"). reflexivity.
Defined.

(** *** More on the directory *)

(** X11: the export request is the listing query restricted to [state],
    [is_independent] and [search]: on these three it has the same
    parameters under the same omission rules, written as text, and it has
    no other parameter. *)
Theorem export_is_listing_restricted (f : Filters) :
  (list_to_map (export_params f) : gmap string string)
  = JS.to_string
    <$> filter (fun kv : string * JS.value =>
                  kv.1 = "state" \/ kv.1 = "is_independent" \/ kv.1 = "search")
          (fetch_params f).
Proof.
  apply map_eq. intros k.
  rewrite export_params_lookup, lookup_fmap, map_lookup_filter.
  destruct (fetch_params f !! k) as [v|]; cbn.
  - case_bool_decide; case_guard; done.
  - by case_bool_decide.
Qed.


(** X23: changes to two different fields commute, and repeating a change
    changes nothing more: the criteria after a series of filter changes
    depend only on the last value given to each field. *)
Theorem filter_changes_commute {A B}
    (key1 : Key A) (value1 : A) (key2 : Key B) (value2 : B) (prev : Filters) :
  updateFilter key1 value1 (updateFilter key1 value1 prev) = updateFilter key1 value1 prev
  /\ (key_name key1 <> key_name key2 ->
      updateFilter key1 value1 (updateFilter key2 value2 prev)
      = updateFilter key2 value2 (updateFilter key1 value1 prev)).
Proof. split; destruct key1; try destruct key2; cbn; done. Qed.

Lemma filter_changes_commute_witness :
  updateFilter key_state "TX" (updateFilter key_is_independent false (initial_filters []))
  = updateFilter key_is_independent false (updateFilter key_state "TX" (initial_filters [])).
Proof.
  apply (filter_changes_commute key_state "TX" key_is_independent false). discriminate.
Defined.
